(** * UUID generator: the Python binding layer over the compiled library

    This development embeds [bindings/python/uuid_generator.py] and checks
    the properties stated for it.  The binding module is a thin wrapper: it
    locates and loads the compiled library, marshals byte buffers through
    [ctypes], turns integer status codes into exceptions and offers a
    process-wide default generator.

    The compiled library itself (the Rust crate exporting
    [uuid_generate_v4], [uuid_to_string], [uuid_get_info] and
    [uuid_compare]) is not part of the sources at hand; its four exported
    functions are modelled from the written specification in [Module Lib]
    and every definition there says so. *)

From Stdlib Require Import ZArith NArith List Ascii Lia.
From Stdlib.Strings Require Import Byte.
From stdpp Require Import gmap strings list pretty.
Import ListNotations.

Local Open Scope Z_scope.

(** ** Exceptions *)

(** The exception classes of the module (lines 15-33) together with the
    interpreter's own classes that the wrapper can raise. *)
Inductive ExnClass : Type :=
  | EntropyError
  | InvalidParameterError
  | BufferTooSmallError
  | UnknownError
  | ValueError
  | FileNotFoundError
  | OSError
  | IndexError
  | UnicodeDecodeError.

Definition ExnClass_eqb (a b : ExnClass) : bool :=
  match a, b with
  | EntropyError, EntropyError
  | InvalidParameterError, InvalidParameterError
  | BufferTooSmallError, BufferTooSmallError
  | UnknownError, UnknownError
  | ValueError, ValueError
  | FileNotFoundError, FileNotFoundError
  | OSError, OSError
  | IndexError, IndexError
  | UnicodeDecodeError, UnicodeDecodeError => true
  | _, _ => false
  end.

(** [class X(UuidError)]: the four library errors derive from [UuidError];
    the interpreter's classes do not. *)
Definition is_UuidError (c : ExnClass) : bool :=
  match c with
  | EntropyError | InvalidParameterError | BufferTooSmallError | UnknownError => true
  | _ => false
  end.

(** A raised exception: its class and its message.  Exceptions raised by the
    interpreter itself carry the empty message here. *)
Inductive Exn : Type := Exc (cls : ExnClass) (msg : string).

Definition exn_class (e : Exn) : ExnClass := let 'Exc c _ := e in c.

(** [ERROR_CODES] (lines 36-41). *)
Definition ERROR_CODES : gmap Z ExnClass :=
  <[1 := EntropyError]>
  (<[2 := InvalidParameterError]>
  (<[3 := BufferTooSmallError]>
  (<[99 := UnknownError]> ∅))).

(** ** Objects and the process state *)

(** A [UuidGenerator] instance: its identity and the path its [_lib] handle
    was loaded from. *)
Record UuidGenerator : Type := mkGenerator {
  gen_id : nat;
  _lib : string
}.

(** A [Uuid] instance (lines 177-178). *)
Record Uuid : Type := mkUuid {
  _bytes : list byte;
  _generator : UuidGenerator
}.

(** The candidate locations probed by [_find_library]: relative to the
    directory of the module file, or relative to the working directory. *)
Inductive Path : Type :=
  | ModuleDir (rel : string)
  | Cwd (rel : string).

(** One call across the foreign-function boundary, as it is made. *)
Inductive FfiCall : Type :=
  | Call_generate_v4
  | Call_to_string (uuid : list byte) (capacity : N)
  | Call_get_info (uuid : list byte)
  | Call_compare (a b : list byte).

(** Everything outside the module's own values that its functions read or
    change. *)
Record World : Type := mkWorld {
  sys_platform : string;                      (* sys.platform *)
  path_exists : Path -> bool;                 (* Path.exists() *)
  path_str : Path -> string;                  (* str(path) *)
  cdll_loads : string -> bool;                (* ctypes.CDLL(path) succeeds *)
  builtin_hash : list byte -> Z;              (* hash() on bytes, this process *)
  os_entropy : nat -> option (nat -> byte);   (* k-th read of the OS source *)
  entropy_reads : nat;                        (* reads made so far *)
  ffi_log : list FfiCall;                     (* library calls, latest first *)
  next_object : nat;                          (* identity of the next instance *)
  _default_generator : option UuidGenerator   (* the module global, line 257 *)
}.

Definition log_call (c : FfiCall) (w : World) : World :=
  mkWorld (sys_platform w) (path_exists w) (path_str w) (cdll_loads w)
          (builtin_hash w)
          (os_entropy w) (entropy_reads w) (c :: ffi_log w)
          (next_object w) (_default_generator w).

Definition consume_entropy (w : World) : World :=
  mkWorld (sys_platform w) (path_exists w) (path_str w) (cdll_loads w)
          (builtin_hash w)
          (os_entropy w) (S (entropy_reads w)) (ffi_log w)
          (next_object w) (_default_generator w).

Definition allocate (w : World) : World :=
  mkWorld (sys_platform w) (path_exists w) (path_str w) (cdll_loads w)
          (builtin_hash w)
          (os_entropy w) (entropy_reads w) (ffi_log w)
          (S (next_object w)) (_default_generator w).

Definition set_default_generator (g : UuidGenerator) (w : World) : World :=
  mkWorld (sys_platform w) (path_exists w) (path_str w) (cdll_loads w)
          (builtin_hash w)
          (os_entropy w) (entropy_reads w) (ffi_log w)
          (next_object w) (Some g).

(** ** Computations that may raise *)

Inductive Result (A : Type) : Type :=
  | Ok (a : A)
  | Raise (e : Exn).
Arguments Ok {A} a.
Arguments Raise {A} e.

Definition Py (A : Type) : Type := World -> Result A * World.

Definition ret {A} (a : A) : Py A := fun w => (Ok a, w).

Definition raise {A} (c : ExnClass) (msg : string) : Py A :=
  fun w => (Raise (Exc c msg), w).

Definition bind {A B} (m : Py A) (k : A -> Py B) : Py B :=
  fun w =>
    match m w with
    | (Ok a, w') => k a w'
    | (Raise e, w') => (Raise e, w')
    end.

Notation "'let!' x ':=' m 'in' k" := (bind m (fun x => k))
  (at level 10, x name, m at level 100, k at level 200).
Notation "'run!' m 'in' k" := (bind m (fun _ => k))
  (at level 10, m at level 100, k at level 200).

(** Outcome of a computation, its final state, and the class it raised. *)
Definition outcome {A} (r : Result A * World) : Result A := fst r.
Definition final {A} (r : Result A * World) : World := snd r.

Definition raised_class {A} (r : Result A) : option ExnClass :=
  match r with
  | Ok _ => None
  | Raise e => Some (exn_class e)
  end.

(** ** Bytes *)

(** The value of a [c_uint8] holding [n]: reduction modulo 256. *)
Definition byte_of_N (n : N) : byte :=
  match Byte.of_N (n mod 256)%N with
  | Some b => b
  | None => x00
  end.

(** [a[i]] for a 16-byte array; the arrays passed across the boundary always
    have 16 cells, so the default is never read. *)
Definition cell (a : list byte) (i : nat) : byte := nth i a x00.

(** ** The compiled library *)

Module Lib.

(** Modelled from the spec: the status codes of the boundary, whose
    declaration in the library is missing.  "0 = success; 1 = entropy
    failure; 2 = invalid parameter; 3 = output buffer too small; 99 =
    unknown/internal error." *)
Definition SUCCESS : Z := 0.

(** Modelled from the spec: "1 = entropy failure". *)
Definition ENTROPY_FAILURE : Z := 1.

(** Modelled from the spec: "2 = invalid parameter (e.g., null/short
    buffer)". *)
Definition INVALID_PARAMETER : Z := 2.

(** Modelled from the spec: "3 = output buffer too small". *)
Definition BUFFER_TOO_SMALL : Z := 3.

(** Modelled from the spec: "99 = unknown/internal error". *)
Definition UNKNOWN : Z := 99.

(** Modelled from the spec: the Generate step of the Identifier Codec,
    whose source (the Rust crate) is missing.  "Overwrites byte 6's high
    nibble with 0100, overwrites byte 8's top two bits with 10, leaves all
    other bits untouched." *)
Definition set_version (b : byte) : byte :=
  byte_of_N (N.lor (N.land (Byte.to_N b) 0x0f) 0x40).

(** Modelled from the spec: the variant half of the same step, "byte 8's
    top two bits" become 10. *)
Definition set_variant (b : byte) : byte :=
  byte_of_N (N.lor (N.land (Byte.to_N b) 0x3f) 0x80).

(** Modelled from the spec: both overwrites applied to the 16 random
    bytes, every other byte being left as it is. *)
Definition impose_v4 (raw : list byte) : list byte :=
  alter set_variant 8%nat (alter set_version 6%nat raw).

(** Modelled from the spec: the Entropy Source, whose source is missing.
    One read of the operating system's generator yields 16 bytes or
    fails; nothing is retried. *)
Definition entropy_source (read : option (nat -> byte)) : option (list byte) :=
  match read with
  | Some src => Some (map src (seq 0 16))
  | None => None
  end.

(** Modelled from the spec: [generate_v4(out_buffer)], whose source is
    missing.  A null [out_buffer] is reported as InvalidParameter, an
    entropy fault as EntropyFailure; otherwise the buffer receives the
    random bytes with version and variant imposed.  The result is the
    status code and the buffer's contents after the call. *)
Definition uuid_generate_v4 (read : option (nat -> byte))
    (out_buffer : option (list byte)) : Z * option (list byte) :=
  match out_buffer with
  | None => (INVALID_PARAMETER, None)
  | Some old =>
      match entropy_source read with
      | None => (ENTROPY_FAILURE, Some old)
      | Some raw => (SUCCESS, Some (impose_v4 raw))
      end
  end.

(** Modelled from the spec: the Extract-info operation behind
    [get_info], whose source is missing.  The version is "bits 48-51 (the
    high nibble of byte 6)", the variant is read from "the top two bits of
    byte 8", where "value 2 denotes the RFC-4122 variant family". *)
Definition extract_version (b : list byte) : N :=
  N.shiftr (Byte.to_N (cell b 6)) 4.

(** Modelled from the spec: the variant field of Extract-info, the top
    two bits of byte 8 read as an integer, so that the pattern 10 is
    reported as 2. *)
Definition extract_variant (b : list byte) : N :=
  N.shiftr (Byte.to_N (cell b 8)) 6.

(** Modelled from the spec: [get_info(in_buffer, out_version,
    out_variant)], whose source is missing.  Total on every 16-byte
    input; a null input is InvalidParameter and writes nothing. *)
Definition uuid_get_info (in_buffer : option (list byte))
    : Z * option (N * N) :=
  match in_buffer with
  | None => (INVALID_PARAMETER, None)
  | Some b => (SUCCESS, Some (extract_version b, extract_variant b))
  end.

(** Modelled from the spec: one digit of the canonical string form,
    whose rendering code is missing: "32 lowercase hexadecimal digits
    grouped 8-4-4-4-12 separated by hyphens". *)
Definition hex_digit (n : N) : byte :=
  byte_of_N (if (n <? 10)%N then 48 + n else 87 + n)%N.

(** Modelled from the spec: the two digits of one byte, high nibble
    first. *)
Definition hex_pair (b : byte) : list byte :=
  [hex_digit (Byte.to_N b / 16)%N; hex_digit (Byte.to_N b mod 16)%N].

(** Modelled from the spec: the hyphens "after digit 8, 12, 16, 20" come
    before bytes 4, 6, 8 and 10. *)
Definition hyphen_before (i : nat) : bool :=
  match i with
  | 4%nat | 6%nat | 8%nat | 10%nat => true
  | _ => false
  end.

(** Modelled from the spec: the text of the bytes from index [i] on. *)
Fixpoint render_from (i : nat) (b : list byte) : list byte :=
  match b with
  | [] => []
  | x :: rest =>
      (if hyphen_before i then [x2d] else []) ++ hex_pair x
        ++ render_from (S i) rest
  end.

(** Modelled from the spec: the canonical string form of an
    identifier, as ASCII bytes. *)
Definition canonical_text (b : list byte) : list byte := render_from 0 b.

(** Modelled from the spec: [to_string(in_buffer, out_string,
    out_capacity)], whose source is missing.  It "fails BufferTooSmall if
    out_capacity < 37 (36 characters + terminator)" and then "writes
    nothing"; null buffers are InvalidParameter.  On success the first 37
    cells of the output receive the text and the terminator.  The result
    is the status code and the output buffer's contents after the
    call. *)
Definition uuid_to_string (in_buffer : option (list byte))
    (out_string : option (list byte)) (out_capacity : N)
    : Z * option (list byte) :=
  match in_buffer, out_string with
  | Some b, Some out =>
      if (out_capacity <? 37)%N then (BUFFER_TOO_SMALL, Some out)
      else (SUCCESS, Some (canonical_text b ++ [x00] ++ drop 37 out))
  | _, _ => (INVALID_PARAMETER, out_string)
  end.

(** Modelled from the spec: the Comparator, whose source is missing.
    "Report whether all 16 bytes are pairwise equal." *)
Definition all_bytes_equal (a b : list byte) : bool :=
  forallb (fun i => Byte.eqb (cell a i) (cell b i)) (seq 0 16).

(** Modelled from the spec: [compare(a, b, out_equal)], whose source is
    missing.  Null inputs are InvalidParameter and write nothing;
    otherwise the call succeeds and "writes 1 if equal, 0
    otherwise". *)
Definition uuid_compare (a b : option (list byte)) : Z * option N :=
  match a, b with
  | Some x, Some y => (SUCCESS, Some (if all_bytes_equal x y then 1 else 0)%N)
  | _, _ => (INVALID_PARAMETER, None)
  end.

End Lib.

(** ** The pieces of [ctypes] and of the interpreter that the wrapper uses *)

(** A Python [str]: its code points. *)
Definition str : Type := list N.

Definition str_of_bytes (b : list byte) : str := map Byte.to_N b.

(** The code points of an ASCII literal. *)
Definition literal (s : string) : str :=
  map (fun c => N_of_ascii c) (String.list_ascii_of_string s).

(** Values that can be handed to [==]. *)
Inductive PyObject : Type :=
  | PyUuid (u : Uuid)
  | PyGenerator (g : UuidGenerator)
  | PyNone
  | PyInt (z : Z)
  | PyStr (s : str)
  | PyBytes (b : list byte).

(** [isinstance(other, Uuid)], with the instance when it is one. *)
Definition as_Uuid (other : PyObject) : option Uuid :=
  match other with
  | PyUuid u => Some u
  | _ => None
  end.

Definition isinstance_Uuid (other : PyObject) : bool :=
  match as_Uuid other with
  | Some _ => true
  | None => false
  end.

(** An array of type [ctypes.c_uint8 * 16] initialised with the unpacked
    [data]: more than 16 initialisers raise [IndexError], fewer leave the
    remaining cells zero. *)
Definition c_uint8_array16 (data : list byte) : Py (list byte) :=
  if (16 <? length data)%nat then raise IndexError ""
  else ret (data ++ replicate (16 - length data) x00).

(** [ctypes.create_string_buffer(n)]: [n] zero bytes. *)
Definition create_string_buffer (n : nat) : list byte := replicate n x00.

(** [buffer.value]: the bytes before the first NUL. *)
Fixpoint buffer_value (buf : list byte) : list byte :=
  match buf with
  | [] => []
  | b :: rest => if Byte.eqb b x00 then [] else b :: buffer_value rest
  end.

Definition in_range (lo hi : N) (b : byte) : bool :=
  ((lo <=? Byte.to_N b) && (Byte.to_N b <=? hi))%N.

Definition continuation (b : byte) : N := (Byte.to_N b mod 64)%N.

(** [bytes.decode('utf-8')] in strict mode: well-formed sequences only (no
    overlong forms, no surrogates, nothing above U+10FFFF); [None] stands
    for [UnicodeDecodeError]. *)
Fixpoint utf8_decode (l : list byte) : option str :=
  match l with
  | [] => Some []
  | b0 :: r0 =>
      let n0 := Byte.to_N b0 in
      if (n0 <? 128)%N then
        cons n0 <$> utf8_decode r0
      else if in_range 194 223 b0 then
        match r0 with
        | b1 :: r1 =>
            if in_range 128 191 b1
            then cons ((n0 mod 32) * 64 + continuation b1)%N <$> utf8_decode r1
            else None
        | _ => None
        end
      else if in_range 224 239 b0 then
        match r0 with
        | b1 :: b2 :: r2 =>
            if in_range (if (n0 =? 224)%N then 160 else 128)
                        (if (n0 =? 237)%N then 159 else 191) b1
               && in_range 128 191 b2
            then cons ((n0 mod 16) * 4096 + continuation b1 * 64
                       + continuation b2)%N <$> utf8_decode r2
            else None
        | _ => None
        end
      else if in_range 240 244 b0 then
        match r0 with
        | b1 :: b2 :: b3 :: r3 =>
            if in_range (if (n0 =? 240)%N then 144 else 128)
                        (if (n0 =? 244)%N then 143 else 191) b1
               && in_range 128 191 b2 && in_range 128 191 b3
            then cons ((n0 mod 8) * 262144 + continuation b1 * 4096
                       + continuation b2 * 64 + continuation b3)%N
                   <$> utf8_decode r3
            else None
        | _ => None
        end
      else None
  end.

Definition decode_utf8 (b : list byte) : Py str :=
  match utf8_decode b with
  | Some s => ret s
  | None => raise UnicodeDecodeError ""
  end.

(** A fresh object identity. *)
Definition new_object : Py nat := fun w => (Ok (next_object w), allocate w).

(** [ctypes.CDLL(path)]: the handle, or [OSError]. *)
Definition CDLL (path : string) : Py string :=
  fun w => if cdll_loads w path then (Ok path, w)
           else (Raise (Exc OSError ""), w).

(** *** Calls through [self._lib]

    Each wrapper passes non-null, caller-allocated buffers, records the
    call, and returns the [c_int32] result with the buffers' contents
    after the call. *)

Definition call_uuid_generate_v4 (uuid_bytes : list byte) : Py (Z * list byte) :=
  fun w =>
    let r := Lib.uuid_generate_v4 (os_entropy w (entropy_reads w)) (Some uuid_bytes) in
    (Ok (fst r, default uuid_bytes (snd r)),
     log_call Call_generate_v4 (consume_entropy w)).

Definition call_uuid_to_string (uuid_array buffer : list byte) (size : N)
    : Py (Z * list byte) :=
  fun w =>
    let r := Lib.uuid_to_string (Some uuid_array) (Some buffer) size in
    (Ok (fst r, default buffer (snd r)),
     log_call (Call_to_string uuid_array size) w).

(** [version] and [variant] start as [c_uint8()], that is 0. *)
Definition call_uuid_get_info (uuid_array : list byte) : Py (Z * (N * N)) :=
  fun w =>
    let r := Lib.uuid_get_info (Some uuid_array) in
    (Ok (fst r, default (0, 0)%N (snd r)), log_call (Call_get_info uuid_array) w).

(** [are_equal] starts as [c_uint8()], that is 0. *)
Definition call_uuid_compare (uuid1_array uuid2_array : list byte) : Py (Z * N) :=
  fun w =>
    let r := Lib.uuid_compare (Some uuid1_array) (Some uuid2_array) in
    (Ok (fst r, default 0%N (snd r)),
     log_call (Call_compare uuid1_array uuid2_array) w).

(** ** class UuidGenerator *)

(** [_find_library] (lines 64-95): the first candidate that exists. *)
Definition possible_paths (platform : string) : list Path :=
  [ ModuleDir "../../target/release/libuuid_generator.so";
    ModuleDir "../../target/debug/libuuid_generator.so";
    ModuleDir "libuuid_generator.so";
    Cwd "./libuuid_generator.so";
    Cwd "./target/release/libuuid_generator.so" ]
  ++ (if String.eqb platform "darwin" then
        [ ModuleDir "../../target/release/libuuid_generator.dylib";
          ModuleDir "../../target/debug/libuuid_generator.dylib";
          ModuleDir "libuuid_generator.dylib" ]
      else if String.eqb platform "win32" then
        [ ModuleDir "../../target/release/uuid_generator.dll";
          ModuleDir "../../target/debug/uuid_generator.dll";
          ModuleDir "uuid_generator.dll" ]
      else []).

Fixpoint first_existing (exists_ : Path -> bool) (paths : list Path) : option Path :=
  match paths with
  | [] => None
  | path :: rest => if exists_ path then Some path else first_existing exists_ rest
  end.

Definition UuidGenerator__find_library : Py string :=
  fun w =>
    match first_existing (path_exists w) (possible_paths (sys_platform w)) with
    | Some path => (Ok (path_str w path), w)
    | None =>
        (Raise (Exc FileNotFoundError
           ("Could not find UUID generator library. " +:+
            "Please build the Rust library first with 'cargo build --release'")),
         w)
    end.

(** [_setup_functions] (lines 97-121) only declares argument and result
    types on the four exported symbols of the loaded library. *)
Definition UuidGenerator__setup_functions : Py unit := ret tt.

(** [UuidGenerator(library_path)]: a new instance, then [__init__]
    (lines 51-62). *)
Definition UuidGenerator___init__ (library_path : option string) : Py UuidGenerator :=
  let! self := new_object in
  let! library_path :=
    match library_path with
    | None => UuidGenerator__find_library
    | Some given => ret given
    end in
  let! lib := CDLL library_path in
  run! UuidGenerator__setup_functions in
  ret (mkGenerator self lib).

(** [_check_error] (lines 123-127). *)
Definition UuidGenerator__check_error (result : Z) : Py unit :=
  if decide (result ≠ 0) then
    let error_class := default UnknownError (ERROR_CODES !! result) in
    raise error_class ("UUID operation failed with error code " +:+ pretty result)
  else ret tt.

(** ** class Uuid *)

(** [Uuid(uuid_bytes, generator)] (lines 167-178). *)
Definition Uuid___init__ (uuid_bytes : list byte) (generator : UuidGenerator) : Py Uuid :=
  if decide (length uuid_bytes ≠ 16%nat) then
    raise ValueError "UUID bytes must be exactly 16 bytes"
  else ret (mkUuid uuid_bytes generator).

(** The [bytes] property (lines 180-183). *)
Definition Uuid_bytes (self : Uuid) : list byte := _bytes self.

(** [__str__] (lines 185-195). *)
Definition Uuid___str__ (self : Uuid) : Py str :=
  let! uuid_array := c_uint8_array16 (_bytes self) in
  let buffer := create_string_buffer 37 in
  let! r := call_uuid_to_string uuid_array buffer (N.of_nat (length buffer)) in
  run! UuidGenerator__check_error (fst r) in
  decode_utf8 (buffer_value (snd r)).

(** [__repr__] (lines 197-199). *)
Definition Uuid___repr__ (self : Uuid) : Py str :=
  let! s := Uuid___str__ self in
  ret (literal "Uuid('" ++ s ++ literal "')").

(** [__eq__] (lines 201-215). *)
Definition Uuid___eq__ (self : Uuid) (other : PyObject) : Py bool :=
  match as_Uuid other with
  | None => ret false
  | Some other =>
      let! uuid1_array := c_uint8_array16 (_bytes self) in
      let! uuid2_array := c_uint8_array16 (_bytes other) in
      let! r := call_uuid_compare uuid1_array uuid2_array in
      run! UuidGenerator__check_error (fst r) in
      ret (negb (snd r =? 0)%N)
  end.

(** [__hash__] (lines 217-219). *)
Definition Uuid___hash__ (self : Uuid) : Py Z :=
  fun w => (Ok (builtin_hash w (_bytes self)), w).

(** [version] (lines 221-232). *)
Definition Uuid_version (self : Uuid) : Py Z :=
  let! uuid_array := c_uint8_array16 (_bytes self) in
  let! r := call_uuid_get_info uuid_array in
  run! UuidGenerator__check_error (fst r) in
  ret (Z.of_N (fst (snd r))).

(** [variant] (lines 234-245). *)
Definition Uuid_variant (self : Uuid) : Py Z :=
  let! uuid_array := c_uint8_array16 (_bytes self) in
  let! r := call_uuid_get_info uuid_array in
  run! UuidGenerator__check_error (fst r) in
  ret (Z.of_N (snd (snd r))).

(** [info] (lines 247-254). *)
Definition Uuid_info (self : Uuid) : Py (Z * Z) :=
  let! version := Uuid_version self in
  let! variant := Uuid_variant self in
  ret (version, variant).

(** ** The methods of UuidGenerator that build a Uuid *)

(** [generate] (lines 129-143). *)
Definition UuidGenerator_generate (self : UuidGenerator) : Py Uuid :=
  let uuid_bytes := replicate 16 x00 in
  let! r := call_uuid_generate_v4 uuid_bytes in
  run! UuidGenerator__check_error (fst r) in
  Uuid___init__ (snd r) self.

(** [from_bytes] (lines 145-160). *)
Definition UuidGenerator_from_bytes (self : UuidGenerator) (uuid_bytes : list byte) : Py Uuid :=
  if decide (length uuid_bytes ≠ 16%nat) then
    raise ValueError "UUID bytes must be exactly 16 bytes"
  else Uuid___init__ uuid_bytes self.

(** ** Module-level convenience functions *)

(** [get_generator] (lines 259-264), run without interruption. *)
Definition get_generator : Py UuidGenerator :=
  fun w =>
    match _default_generator w with
    | None =>
        (let! g := UuidGenerator___init__ None in
         fun w' => (Ok g, set_default_generator g w')) w
    | Some g => (Ok g, w)
    end.

(** [uuid4] (lines 266-268). *)
Definition uuid4 : Py Uuid :=
  let! g := get_generator in
  UuidGenerator_generate g.

(** [from_bytes] at module level (lines 270-272). *)
Definition from_bytes (uuid_bytes : list byte) : Py Uuid :=
  let! g := get_generator in
  UuidGenerator_from_bytes g uuid_bytes.

(** ** [get_generator] with several threads

    The interpreter may switch threads between the statements of
    [get_generator].  A thread inside the function is at one of three
    places: before the test of line 262, before the construction and
    assignment of line 263 (the test has seen [None]), or before the
    [return] of line 264. *)
Inductive Frame : Type :=
  | AtTest
  | AtConstruct
  | AtReturn
  | Returned (g : option UuidGenerator)
  | Raised (e : Exn).

Definition step_frame (f : Frame) (w : World) : Frame * World :=
  match f with
  | AtTest =>
      match _default_generator w with
      | None => (AtConstruct, w)
      | Some _ => (AtReturn, w)
      end
  | AtConstruct =>
      match UuidGenerator___init__ None w with
      | (Ok g, w') => (AtReturn, set_default_generator g w')
      | (Raise e, w') => (Raised e, w')
      end
  | AtReturn => (Returned (_default_generator w), w)
  | Returned g => (Returned g, w)
  | Raised e => (Raised e, w)
  end.

(** A schedule names, step by step, the thread that runs next. *)
Fixpoint run_schedule (schedule : list nat) (threads : list Frame) (w : World)
    : list Frame * World :=
  match schedule with
  | [] => (threads, w)
  | t :: rest =>
      match threads !! t with
      | Some f =>
          let r := step_frame f w in
          run_schedule rest (<[t := fst r]> threads) (snd r)
      | None => run_schedule rest threads w
      end
  end.

(** What "created exactly once, safely under concurrent first use" asks of
    [n] threads that all call [get_generator] on a fresh process: at most
    one instance is constructed, and no two calls return different
    instances. *)
Definition initialised_once (w0 : World) (n : nat) (schedule : list nat) : Prop :=
  let r := run_schedule schedule (replicate n AtTest) w0 in
  (next_object (snd r) <= S (next_object w0))%nat /\
  forall i j gi gj,
    fst r !! i = Some (Returned gi) ->
    fst r !! j = Some (Returned gj) ->
    gi = gj.

(** [n] calls of [get_generator] one after the other, with their results. *)
Fixpoint get_generator_times (n : nat) : Py (list UuidGenerator) :=
  match n with
  | O => ret []
  | S k =>
      let! g := get_generator in
      let! gs := get_generator_times k in
      ret (g :: gs)
  end.


(** ** The canonical string form, as a predicate on text *)

Definition is_lower_hex (c : N) : bool :=
  ((48 <=? c) && (c <=? 57) || (97 <=? c) && (c <=? 102))%N.

Definition is_hyphen (c : N) : bool := (c =? 45)%N.

(** Eight, four, four, four and twelve lowercase hexadecimal digits with a
    hyphen between the groups, and nothing else. *)
Definition canonical_form (s : str) : bool :=
  match s with
  | a :: rest =>
      forallb is_lower_hex (take 8 s)
      && forallb is_hyphen (take 1 (drop 8 s))
      && forallb is_lower_hex (take 4 (drop 9 s))
      && forallb is_hyphen (take 1 (drop 13 s))
      && forallb is_lower_hex (take 4 (drop 14 s))
      && forallb is_hyphen (take 1 (drop 18 s))
      && forallb is_lower_hex (take 4 (drop 19 s))
      && forallb is_hyphen (take 1 (drop 23 s))
      && forallb is_lower_hex (take 12 (drop 24 s))
      && (length s =? 36)%nat
  | [] => false
  end.

(** A byte of the rendered text: a lowercase hexadecimal digit or a
    hyphen. *)
Definition text_byte (b : byte) : bool :=
  is_lower_hex (Byte.to_N b) || is_hyphen (Byte.to_N b).

(** ** The status-code taxonomy, as the specification words it

    "0 = success; 1 = entropy failure; 2 = invalid parameter; 3 = output
    buffer too small; 99 = unknown/internal error", any other nonzero value
    being unknown as well.  [None] stands for "no exception". *)
Definition taxonomy (c : Z) : option ExnClass :=
  if c =? 0 then None
  else if c =? 1 then Some EntropyError
  else if c =? 2 then Some InvalidParameterError
  else if c =? 3 then Some BufferTooSmallError
  else Some UnknownError.

(** ** A concrete process, used to run the functions on examples *)

Definition sample_world : World :=
  mkWorld "linux"
    (fun p => match p with
              | ModuleDir rel => String.eqb rel "libuuid_generator.so"
              | Cwd _ => false
              end)
    (fun p => match p with
              | ModuleDir rel => "/opt/uuid/" +:+ rel
              | Cwd rel => rel
              end)
    (fun _ => true)
    (fun b => fold_left (fun acc x => 31 * acc + Z.of_N (Byte.to_N x)) b 7)
    (fun k => Some (fun i => byte_of_N (N.of_nat (37 * k + 11 * i + 200))))
    0 [] 0 None.

(** A process in which the library cannot be found. *)
Definition bare_world : World :=
  mkWorld "linux" (fun _ => false)
    (fun p => match p with ModuleDir rel => rel | Cwd rel => rel end)
    (fun _ => false)
    (fun _ => 0)
    (fun _ => None)
    0 [] 0 None.

Definition sample_generator : UuidGenerator :=
  mkGenerator 0 "/opt/uuid/libuuid_generator.so".

Definition sample_bytes : list byte :=
  [x00; x11; x22; x33; x44; x55; x66; x77; x88; x99; xaa; xbb; xcc; xdd; xee; xff].

Definition short_bytes : list byte := take 15 sample_bytes.

(** A process in which the release build beside the module exists but does
    not load, while the debug build exists and would load. *)
Definition broken_release_world : World :=
  mkWorld "linux"
    (fun p => match p with
              | ModuleDir rel =>
                  String.eqb rel "../../target/release/libuuid_generator.so"
                  || String.eqb rel "../../target/debug/libuuid_generator.so"
              | Cwd _ => false
              end)
    (fun p => match p with
              | ModuleDir rel => "/opt/uuid/" +:+ rel
              | Cwd rel => rel
              end)
    (fun path => String.eqb path "/opt/uuid/../../target/debug/libuuid_generator.so")
    (fun _ => 0)
    (fun _ => None)
    0 [] 0 None.

(** A process on another platform where only macOS and Windows builds are
    present. *)
Definition foreign_builds_world : World :=
  mkWorld "linux"
    (fun p => match p with
              | ModuleDir rel =>
                  String.eqb rel "libuuid_generator.dylib"
                  || String.eqb rel "uuid_generator.dll"
              | Cwd _ => false
              end)
    (fun p => match p with ModuleDir rel => rel | Cwd rel => rel end)
    (fun _ => true)
    (fun _ => 0)
    (fun _ => None)
    0 [] 0 None.

(** A process whose entropy source fails, the library being available. *)
Definition no_entropy_world : World :=
  mkWorld (sys_platform sample_world) (path_exists sample_world)
    (path_str sample_world) (cdll_loads sample_world)
    (builtin_hash sample_world) (fun _ => None) 0 [] 0 None.

(** The sample process after the default generator has been stored. *)
Definition initialised_world : World :=
  set_default_generator sample_generator (allocate sample_world).

(** * Properties *)

(** ** Running the monad *)

Lemma bind_ok {A B} (m : Py A) (k : A -> Py B) w a w' :
  m w = (Ok a, w') -> bind m k w = k a w'.
Proof. intros H. unfold bind. now rewrite H. Qed.

Lemma bind_raise {A B} (m : Py A) (k : A -> Py B) w e w' :
  m w = (Raise e, w') -> bind m k w = (Raise e, w').
Proof. intros H. unfold bind. now rewrite H. Qed.

Lemma bind_inv {A B} (m : Py A) (k : A -> Py B) w b w2 :
  bind m k w = (Ok b, w2) ->
  exists a w1, m w = (Ok a, w1) /\ k a w1 = (Ok b, w2).
Proof.
  unfold bind. destruct (m w) as [[a|e] w1]; intros H.
  - now exists a, w1.
  - discriminate.
Qed.

(** ** Marshalling *)

Lemma c_uint8_array16_exact (data : list byte) w :
  length data = 16%nat -> c_uint8_array16 data w = (Ok data, w).
Proof.
  intros H. unfold c_uint8_array16. rewrite H. simpl.
  now rewrite app_nil_r.
Qed.

Lemma check_error_success w : UuidGenerator__check_error 0 w = (Ok tt, w).
Proof. reflexivity. Qed.

(** ** Status codes and exceptions *)

Lemma ERROR_CODES_other (c : Z) :
  c <> 1 -> c <> 2 -> c <> 3 -> c <> 99 -> ERROR_CODES !! c = None.
Proof.
  intros H1 H2 H3 H99. unfold ERROR_CODES.
  rewrite !lookup_insert_ne by congruence. apply lookup_empty.
Qed.

Lemma ERROR_CODES_taxonomy (c : Z) :
  c <> 0 -> taxonomy c = Some (default UnknownError (ERROR_CODES !! c)).
Proof.
  intros H0. unfold taxonomy.
  destruct (Z.eqb_spec c 0) as [|_]; [contradiction|].
  destruct (Z.eqb_spec c 1) as [->|N1]; [reflexivity|].
  destruct (Z.eqb_spec c 2) as [->|N2]; [reflexivity|].
  destruct (Z.eqb_spec c 3) as [->|N3]; [reflexivity|].
  destruct (Z.eq_dec c 99) as [->|N99]; [reflexivity|].
  now rewrite ERROR_CODES_other.
Qed.

(** C6: [_check_error] follows the status-code taxonomy for every integer
    [c]: it returns normally when [c] is 0 and otherwise raises the class
    the taxonomy assigns to [c] (EntropyError for 1, InvalidParameterError
    for 2, BufferTooSmallError for 3, UnknownError for 99 and for every
    other nonzero value), leaving the process state as it was; so a nonzero
    code always raises. *)
Theorem check_error_taxonomy (c : Z) (w : World) :
  UuidGenerator__check_error c w =
    (match taxonomy c with
     | None => Ok tt
     | Some cls =>
         Raise (Exc cls ("UUID operation failed with error code " +:+ pretty c))
     end, w)
  /\ (c <> 0 -> exists e, outcome (UuidGenerator__check_error c w) = Raise e).
Proof.
  unfold UuidGenerator__check_error.
  destruct (decide (c ≠ 0)) as [Hc|Hc].
  - rewrite (ERROR_CODES_taxonomy c Hc). split; [reflexivity|].
    intros _. eexists. reflexivity.
  - assert (c = 0) as -> by lia. split; [reflexivity|].
    intros H. now elim H.
Qed.

Lemma check_error_taxonomy_witness :
  UuidGenerator__check_error 3 sample_world =
    (Raise (Exc BufferTooSmallError "UUID operation failed with error code 3"),
     sample_world)
  /\ exists e, outcome (UuidGenerator__check_error 3 sample_world) = Raise e.
Proof.
  destruct (check_error_taxonomy 3 sample_world) as [H1 H2].
  split; [exact H1 | apply H2; lia].
Defined.

(** ** Construction from caller-supplied bytes *)

(** C3: for every [b] of exactly 16 bytes, [from_bytes] succeeds without
    touching the process state and the [bytes] of the resulting Uuid are
    [b] itself, whatever its version and variant bits are. *)
Theorem from_bytes_roundtrip (g : UuidGenerator) (b : list byte) (w : World) :
  length b = 16%nat ->
  exists u, UuidGenerator_from_bytes g b w = (Ok u, w) /\ Uuid_bytes u = b.
Proof.
  intros H. exists (mkUuid b g).
  unfold UuidGenerator_from_bytes, Uuid___init__.
  destruct (decide (length b ≠ 16%nat)) as [Hne|_]; [contradiction|].
  split; reflexivity.
Qed.

Lemma from_bytes_roundtrip_witness :
  exists u,
    UuidGenerator_from_bytes sample_generator sample_bytes sample_world
      = (Ok u, sample_world)
    /\ Uuid_bytes u = sample_bytes.
Proof.
  apply (from_bytes_roundtrip sample_generator sample_bytes sample_world).
  reflexivity.
Defined.

(** The same through the module-level [from_bytes], once the default
    generator is available. *)
Lemma module_from_bytes_roundtrip (b : list byte) (w w1 : World) g :
  length b = 16%nat ->
  get_generator w = (Ok g, w1) ->
  exists u, from_bytes b w = (Ok u, w1) /\ Uuid_bytes u = b.
Proof.
  intros H Hg. unfold from_bytes. rewrite (bind_ok _ _ _ _ _ Hg).
  now apply from_bytes_roundtrip.
Qed.

(** C5, as stated, fails: a 15-byte value is rejected by [from_bytes] and by
    the constructor, but the exception is not InvalidParameterError (nor
    any other UuidError). *)
Lemma wrong_length_not_InvalidParameter :
  length short_bytes = 15%nat
  /\ raised_class (outcome (UuidGenerator_from_bytes sample_generator short_bytes sample_world))
       <> Some InvalidParameterError
  /\ raised_class (outcome (Uuid___init__ short_bytes sample_generator sample_world))
       <> Some InvalidParameterError.
Proof. repeat split; discriminate. Qed.

(** C5, amended: for every bytes value whose length is not exactly 16,
    [UuidGenerator.from_bytes] and the Uuid constructor raise ValueError,
    and the process state is as before: no library call, no allocation. *)
Theorem wrong_length_ValueError (g : UuidGenerator) (b : list byte) (w : World) :
  length b <> 16%nat ->
  UuidGenerator_from_bytes g b w
    = (Raise (Exc ValueError "UUID bytes must be exactly 16 bytes"), w)
  /\ Uuid___init__ b g w
    = (Raise (Exc ValueError "UUID bytes must be exactly 16 bytes"), w).
Proof.
  intros H. unfold UuidGenerator_from_bytes, Uuid___init__.
  destruct (decide (length b ≠ 16%nat)) as [_|Heq]; [|contradiction].
  split; reflexivity.
Qed.

Lemma wrong_length_ValueError_witness :
  UuidGenerator_from_bytes sample_generator short_bytes sample_world
    = (Raise (Exc ValueError "UUID bytes must be exactly 16 bytes"), sample_world)
  /\ Uuid___init__ short_bytes sample_generator sample_world
    = (Raise (Exc ValueError "UUID bytes must be exactly 16 bytes"), sample_world).
Proof.
  apply (wrong_length_ValueError sample_generator short_bytes sample_world).
  simpl. lia.
Defined.

(** ** Equality with other values, and hashing *)

(** C9: comparing a Uuid with a value that is not a Uuid gives [False];
    nothing is raised and the process state, the record of library calls
    included, is unchanged. *)
Theorem eq_non_Uuid (self : Uuid) (other : PyObject) (w : World) :
  isinstance_Uuid other = false ->
  Uuid___eq__ self other w = (Ok false, w).
Proof.
  unfold isinstance_Uuid, Uuid___eq__.
  destruct (as_Uuid other); [discriminate | reflexivity].
Qed.

Lemma eq_non_Uuid_witness :
  Uuid___eq__ (mkUuid sample_bytes sample_generator) (PyBytes sample_bytes) sample_world
    = (Ok false, sample_world).
Proof.
  apply (eq_non_Uuid (mkUuid sample_bytes sample_generator) (PyBytes sample_bytes)
           sample_world).
  reflexivity.
Defined.

(** No operation of the module replaces the interpreter's hash function;
    generation, the one that changes most of the state, is an instance. *)
Lemma generate_keeps_hash (g : UuidGenerator) (w : World) :
  builtin_hash (final (UuidGenerator_generate g w)) = builtin_hash w.
Proof.
  unfold UuidGenerator_generate, bind, call_uuid_generate_v4, final.
  destruct (UuidGenerator__check_error _ _) as [[[]|e] w'] eqn:E.
  - unfold UuidGenerator__check_error in E.
    destruct (decide _); [discriminate|]. injection E as <-.
    unfold Uuid___init__. now destruct (decide _).
  - unfold UuidGenerator__check_error in E.
    destruct (decide _); [|discriminate]. now injection E as _ <-.
Qed.

(** C10: two Uuid values holding the same bytes hash alike in one process,
    whichever generators they belong to and whatever else has happened in
    between: [__hash__] reads the bytes only. *)
Theorem hash_same_bytes (a b : Uuid) (w1 w2 : World) :
  builtin_hash w1 = builtin_hash w2 ->
  _bytes a = _bytes b ->
  outcome (Uuid___hash__ a w1) = outcome (Uuid___hash__ b w2).
Proof.
  intros Hh Hb. unfold Uuid___hash__, outcome. simpl.
  now rewrite Hh, Hb.
Qed.

Lemma hash_same_bytes_witness :
  outcome (Uuid___hash__ (mkUuid sample_bytes sample_generator) sample_world)
  = outcome (Uuid___hash__ (mkUuid sample_bytes (mkGenerator 5 "other.so"))
               (log_call Call_generate_v4 sample_world)).
Proof.
  apply (hash_same_bytes (mkUuid sample_bytes sample_generator)
           (mkUuid sample_bytes (mkGenerator 5 "other.so"))
           sample_world (log_call Call_generate_v4 sample_world));
    reflexivity.
Defined.

(** ** Version and variant of generated identifiers *)

Lemma set_version_nibble (b : byte) :
  N.shiftr (Byte.to_N (Lib.set_version b)) 4 = 4%N.
Proof. destruct b; reflexivity. Qed.

Lemma set_variant_bits (b : byte) :
  N.shiftr (Byte.to_N (Lib.set_variant b)) 6 = 2%N.
Proof. destruct b; reflexivity. Qed.

(** Imposing the bits leaves the low nibble of byte 6 and the low six bits
    of byte 8 as they were. *)
Lemma set_version_keeps_low (b : byte) :
  N.land (Byte.to_N (Lib.set_version b)) 0x0f = N.land (Byte.to_N b) 0x0f.
Proof. destruct b; reflexivity. Qed.

Lemma set_variant_keeps_low (b : byte) :
  N.land (Byte.to_N (Lib.set_variant b)) 0x3f = N.land (Byte.to_N b) 0x3f.
Proof. destruct b; reflexivity. Qed.

Lemma impose_v4_length (raw : list byte) :
  length (Lib.impose_v4 raw) = length raw.
Proof. unfold Lib.impose_v4. now rewrite !length_alter. Qed.

Lemma entropy_source_length read raw :
  Lib.entropy_source read = Some raw -> length raw = 16%nat.
Proof.
  unfold Lib.entropy_source. destruct read; [|discriminate].
  intros [= <-]. reflexivity.
Qed.

Lemma impose_v4_version (raw : list byte) :
  length raw = 16%nat -> Lib.extract_version (Lib.impose_v4 raw) = 4%N.
Proof.
  intros H. do 17 (destruct raw as [|? raw]; try discriminate).
  unfold Lib.extract_version, Lib.impose_v4, cell. simpl.
  apply set_version_nibble.
Qed.

Lemma impose_v4_variant (raw : list byte) :
  length raw = 16%nat -> Lib.extract_variant (Lib.impose_v4 raw) = 2%N.
Proof.
  intros H. do 17 (destruct raw as [|? raw]; try discriminate).
  unfold Lib.extract_variant, Lib.impose_v4, cell. simpl.
  apply set_variant_bits.
Qed.

(** What [version] and [variant] return for a 16-byte Uuid. *)
Lemma version_run (u : Uuid) (w : World) :
  length (_bytes u) = 16%nat ->
  Uuid_version u w
    = (Ok (Z.of_N (Lib.extract_version (_bytes u))),
       log_call (Call_get_info (_bytes u)) w).
Proof.
  intros H. unfold Uuid_version.
  rewrite (bind_ok _ _ _ _ _ (c_uint8_array16_exact _ w H)).
  reflexivity.
Qed.

Lemma variant_run (u : Uuid) (w : World) :
  length (_bytes u) = 16%nat ->
  Uuid_variant u w
    = (Ok (Z.of_N (Lib.extract_variant (_bytes u))),
       log_call (Call_get_info (_bytes u)) w).
Proof.
  intros H. unfold Uuid_variant.
  rewrite (bind_ok _ _ _ _ _ (c_uint8_array16_exact _ w H)).
  reflexivity.
Qed.

(** [generate] step by step: it succeeds exactly when the entropy read
    does, and then holds the random bytes with the bits imposed. *)
Lemma generate_run (g : UuidGenerator) (w : World) :
  UuidGenerator_generate g w =
    match Lib.entropy_source (os_entropy w (entropy_reads w)) with
    | Some raw =>
        (Ok (mkUuid (Lib.impose_v4 raw) g),
         log_call Call_generate_v4 (consume_entropy w))
    | None =>
        (Raise (Exc EntropyError "UUID operation failed with error code 1"),
         log_call Call_generate_v4 (consume_entropy w))
    end.
Proof.
  unfold UuidGenerator_generate, bind, call_uuid_generate_v4, Lib.uuid_generate_v4.
  destruct (Lib.entropy_source (os_entropy w (entropy_reads w))) as [raw|] eqn:E.
  - simpl. unfold Uuid___init__.
    destruct (decide (length (Lib.impose_v4 raw) ≠ 16%nat)) as [Hne|_]; [|reflexivity].
    exfalso. apply Hne. rewrite impose_v4_length.
    now apply entropy_source_length in E.
  - reflexivity.
Qed.

Lemma generate_inv (g : UuidGenerator) (w w1 : World) (u : Uuid) :
  UuidGenerator_generate g w = (Ok u, w1) ->
  exists raw, length raw = 16%nat /\ _bytes u = Lib.impose_v4 raw.
Proof.
  rewrite generate_run.
  destruct (Lib.entropy_source _) as [raw|] eqn:E; [|discriminate].
  intros [= <- _]. exists raw. split; [|reflexivity].
  now apply entropy_source_length in E.
Qed.

(** C1: every identifier returned by [generate], and so by [uuid4], reads
    back as version 4 and variant 2: on it [version] returns 4 and
    [variant] returns 2, in whatever state they are called. *)
Theorem generated_version_variant (g : UuidGenerator) (w w1 : World) (u : Uuid) :
  UuidGenerator_generate g w = (Ok u, w1) \/ uuid4 w = (Ok u, w1) ->
  forall w2,
    outcome (Uuid_version u w2) = Ok 4
    /\ outcome (Uuid_variant u w2) = Ok 2.
Proof.
  intros H w2.
  assert (exists raw, length raw = 16%nat /\ _bytes u = Lib.impose_v4 raw)
    as (raw & Hlen & Hb).
  { destruct H as [H|H].
    - now apply generate_inv in H.
    - unfold uuid4 in H. apply bind_inv in H as (g' & w' & _ & H).
      now apply generate_inv in H. }
  assert (length (_bytes u) = 16%nat) as H16
    by now rewrite Hb, impose_v4_length.
  rewrite (version_run u w2 H16), (variant_run u w2 H16). unfold outcome. simpl.
  rewrite Hb, (impose_v4_version raw Hlen), (impose_v4_variant raw Hlen).
  split; reflexivity.
Qed.

(** Generation does return an identifier whenever the entropy read
    succeeds, also through the default generator. *)
Lemma uuid4_sample :
  exists u w1, uuid4 sample_world = (Ok u, w1) /\ length (_bytes u) = 16%nat.
Proof. eexists. eexists. split; [vm_compute; reflexivity | reflexivity]. Qed.

Lemma generated_version_variant_witness :
  exists u,
    outcome (uuid4 sample_world) = Ok u
    /\ outcome (Uuid_version u sample_world) = Ok 4
    /\ outcome (Uuid_variant u sample_world) = Ok 2.
Proof.
  destruct (uuid4 sample_world) as [[u|e] w1] eqn:E; [|vm_compute in E; discriminate].
  exists u. split; [reflexivity|].
  apply (generated_version_variant sample_generator sample_world w1 u).
  right. exact E.
Defined.

(** ** Equality *)

Lemma all_bytes_equal_iff (a b : list byte) :
  length a = 16%nat -> length b = 16%nat ->
  Lib.all_bytes_equal a b = true <-> a = b.
Proof.
  intros Ha Hb. unfold Lib.all_bytes_equal. rewrite forallb_forall. split.
  - intros H. apply (nth_ext a b x00 x00); [congruence|].
    intros i Hi. apply Byte.byte_dec_bl. apply H.
    apply in_seq. lia.
  - intros -> i _. unfold cell.
    destruct (Byte.eqb (nth i b x00) (nth i b x00)) eqn:E; [reflexivity|].
    now apply Byte.eqb_false in E.
Qed.

Lemma eq_run (a b : Uuid) (w : World) :
  length (_bytes a) = 16%nat -> length (_bytes b) = 16%nat ->
  Uuid___eq__ a (PyUuid b) w
    = (Ok (Lib.all_bytes_equal (_bytes a) (_bytes b)),
       log_call (Call_compare (_bytes a) (_bytes b)) w).
Proof.
  intros Ha Hb. unfold Uuid___eq__. simpl.
  rewrite (bind_ok _ _ _ _ _ (c_uint8_array16_exact _ w Ha)).
  rewrite (bind_ok _ _ _ _ _ (c_uint8_array16_exact _ w Hb)).
  unfold bind, call_uuid_compare, Lib.uuid_compare. simpl.
  now destruct (Lib.all_bytes_equal (_bytes a) (_bytes b)).
Qed.

(** C4: for Uuid values [a] and [b] (each holding 16 bytes, as the
    constructor ensures), [a == b] returns a boolean that is true exactly
    when the two byte strings are equal; so [a == a] is true and [a == b]
    is false as soon as one byte differs. *)
Theorem eq_is_byte_equality (a b : Uuid) (w : World) :
  length (_bytes a) = 16%nat -> length (_bytes b) = 16%nat ->
  exists r,
    outcome (Uuid___eq__ a (PyUuid b) w) = Ok r
    /\ (r = true <-> _bytes a = _bytes b)
    /\ outcome (Uuid___eq__ a (PyUuid a) w) = Ok true
    /\ (_bytes a <> _bytes b -> r = false).
Proof.
  intros Ha Hb. exists (Lib.all_bytes_equal (_bytes a) (_bytes b)).
  rewrite (eq_run a b w Ha Hb), (eq_run a a w Ha Ha). unfold outcome. simpl.
  pose proof (all_bytes_equal_iff _ _ Ha Hb) as Hiff.
  pose proof (all_bytes_equal_iff _ _ Ha Ha) as Hrefl.
  repeat split.
  - apply Hiff.
  - apply Hiff.
  - f_equal. now apply Hrefl.
  - intros Hne. destruct (Lib.all_bytes_equal (_bytes a) (_bytes b)); [|reflexivity].
    elim Hne. now apply Hiff.
Qed.

Lemma eq_is_byte_equality_witness :
  exists r,
    outcome (Uuid___eq__ (mkUuid sample_bytes sample_generator)
               (PyUuid (mkUuid (Lib.impose_v4 sample_bytes) sample_generator))
               sample_world) = Ok r
    /\ r = false.
Proof.
  destruct (eq_is_byte_equality (mkUuid sample_bytes sample_generator)
              (mkUuid (Lib.impose_v4 sample_bytes) sample_generator)
              sample_world eq_refl eq_refl) as (r & Hr & _ & _ & Hne).
  exists r. split; [exact Hr|]. apply Hne. simpl. discriminate.
Defined.

(** ** Rendering *)

Lemma hex_high_digit (b : byte) :
  is_lower_hex (Byte.to_N (Lib.hex_digit (Byte.to_N b / 16)%N)) = true.
Proof. destruct b; reflexivity. Qed.

Lemma hex_low_digit (b : byte) :
  is_lower_hex (Byte.to_N (Lib.hex_digit (Byte.to_N b mod 16)%N)) = true.
Proof. destruct b; reflexivity. Qed.

Lemma text_byte_not_NUL (b : byte) : text_byte b = true -> Byte.eqb b x00 = false.
Proof. destruct b; (reflexivity || discriminate). Qed.

Lemma text_byte_ascii (b : byte) : text_byte b = true -> (Byte.to_N b <? 128)%N = true.
Proof. destruct b; (reflexivity || discriminate). Qed.

Lemma buffer_value_text (txt rest : list byte) :
  forallb text_byte txt = true -> buffer_value (txt ++ x00 :: rest) = txt.
Proof.
  induction txt as [|b txt IH]; simpl; [reflexivity|].
  intros H. apply andb_prop in H as [Hb Htxt].
  rewrite (text_byte_not_NUL b Hb). f_equal. now apply IH.
Qed.

Lemma utf8_decode_text (txt : list byte) :
  forallb text_byte txt = true -> utf8_decode txt = Some (str_of_bytes txt).
Proof.
  induction txt as [|b txt IH]; [reflexivity|].
  intros H. simpl in H. apply andb_prop in H as [Hb Htxt].
  cbn [utf8_decode]. rewrite (text_byte_ascii b Hb), (IH Htxt). reflexivity.
Qed.

Lemma hex_pair_text (b : byte) : forallb text_byte (Lib.hex_pair b) = true.
Proof.
  unfold Lib.hex_pair, text_byte. simpl.
  now rewrite hex_high_digit, hex_low_digit.
Qed.

Lemma render_from_text (b : list byte) (i : nat) :
  forallb text_byte (Lib.render_from i b) = true.
Proof.
  revert i. induction b as [|x b IH]; intros i; [reflexivity|].
  cbn [Lib.render_from]. rewrite !forallb_app, hex_pair_text, IH.
  now destruct (Lib.hyphen_before i).
Qed.

Lemma canonical_text_form (b : list byte) :
  length b = 16%nat ->
  canonical_form (str_of_bytes (Lib.canonical_text b)) = true.
Proof.
  intros H. do 17 (destruct b as [|? b]; try discriminate).
  unfold Lib.canonical_text, Lib.render_from, Lib.hex_pair, Lib.hyphen_before.
  unfold canonical_form, str_of_bytes.
  cbn [app map take drop forallb length Nat.eqb andb].
  rewrite !hex_high_digit, !hex_low_digit. reflexivity.
Qed.

Lemma canonical_form_length (s : str) : canonical_form s = true -> length s = 36%nat.
Proof.
  unfold canonical_form. destruct s as [|a rest]; [discriminate|].
  intros H. apply andb_prop in H as [_ H]. now apply Nat.eqb_eq in H.
Qed.

(** The library call made by [__str__]: a zeroed 37-byte buffer. *)
Lemma to_string_37 (b : list byte) :
  Lib.uuid_to_string (Some b) (Some (create_string_buffer 37))
      (N.of_nat (length (create_string_buffer 37)))
    = (0, Some (Lib.canonical_text b ++ [x00])).
Proof. reflexivity. Qed.

(** [__str__] step by step, for a 16-byte Uuid. *)
Lemma str_run (u : Uuid) (w : World) :
  length (_bytes u) = 16%nat ->
  Uuid___str__ u w
    = (Ok (str_of_bytes (Lib.canonical_text (_bytes u))),
       log_call (Call_to_string (_bytes u) 37) w).
Proof.
  intros H. unfold Uuid___str__.
  rewrite (bind_ok _ _ _ _ _ (c_uint8_array16_exact _ w H)).
  unfold bind, call_uuid_to_string. rewrite to_string_37.
  cbn [fst snd from_option id]. rewrite check_error_success. unfold decode_utf8.
  pose proof (render_from_text (_bytes u) 0) as Htxt.
  fold (Lib.canonical_text (_bytes u)) in Htxt.
  rewrite (buffer_value_text _ _ Htxt), (utf8_decode_text _ Htxt).
  reflexivity.
Qed.

(** C2: for every 16-byte [b], [__str__] (which offers a 37-byte buffer)
    returns 36 characters in the form 8-4-4-4-12 of lowercase hexadecimal
    digits and hyphens; and the library call behind it, offered any
    capacity, either reports BufferTooSmall, the capacity being below 37
    and nothing being written, or succeeds and writes that text followed
    by the terminator. *)
Theorem str_canonical (b out : list byte) (capacity : N)
    (g : UuidGenerator) (w : World) :
  length b = 16%nat ->
  (exists s,
     outcome (Uuid___str__ (mkUuid b g) w) = Ok s
     /\ canonical_form s = true /\ length s = 36%nat)
  /\ ((capacity < 37)%N
        /\ Lib.uuid_to_string (Some b) (Some out) capacity
             = (Lib.BUFFER_TOO_SMALL, Some out)
      \/ (37 <= capacity)%N
        /\ exists txt,
             Lib.uuid_to_string (Some b) (Some out) capacity
               = (Lib.SUCCESS, Some (txt ++ [x00] ++ drop 37 out))
             /\ canonical_form (str_of_bytes txt) = true
             /\ length txt = 36%nat).
Proof.
  intros H. pose proof (canonical_text_form b H) as Hform.
  split.
  - exists (str_of_bytes (Lib.canonical_text b)).
    rewrite (str_run (mkUuid b g) w H). unfold outcome. simpl.
    repeat split; [exact Hform | now apply canonical_form_length].
  - unfold Lib.uuid_to_string.
    destruct (N.ltb_spec capacity 37) as [Hlt|Hge].
    + left. split; [exact Hlt | reflexivity].
    + right. split; [exact Hge|]. exists (Lib.canonical_text b).
      repeat split; [exact Hform|].
      apply canonical_form_length in Hform. unfold str_of_bytes in Hform.
      now rewrite length_map in Hform.
Qed.

Lemma str_canonical_witness :
  (exists s,
     outcome (Uuid___str__ (mkUuid sample_bytes sample_generator) sample_world) = Ok s
     /\ canonical_form s = true /\ length s = 36%nat)
  /\ Lib.uuid_to_string (Some sample_bytes) (Some (create_string_buffer 10)) 10
       = (Lib.BUFFER_TOO_SMALL, Some (create_string_buffer 10)).
Proof.
  destruct (str_canonical sample_bytes (create_string_buffer 10) 10
              sample_generator sample_world eq_refl) as [Hs [[_ Hsmall]|[Hge _]]].
  - split; [exact Hs | exact Hsmall].
  - exfalso. revert Hge. vm_compute. intros Hge. now apply Hge.
Defined.

Example str_sample :
  outcome (Uuid___str__ (mkUuid sample_bytes sample_generator) sample_world)
  = Ok (literal "00112233-4455-6677-8899-aabbccddeeff").
Proof. reflexivity. Qed.

(** C7: rendering is a function of the bytes: two Uuid values holding the
    same 16 bytes render to the same 36-character string, whichever
    generators they belong to and in whatever states [__str__] runs. *)
Theorem str_deterministic (a b : Uuid) (w1 w2 : World) :
  length (_bytes a) = 16%nat ->
  _bytes a = _bytes b ->
  exists s,
    outcome (Uuid___str__ a w1) = Ok s
    /\ outcome (Uuid___str__ b w2) = Ok s
    /\ length s = 36%nat.
Proof.
  intros Ha Hab. assert (length (_bytes b) = 16%nat) as Hb by congruence.
  exists (str_of_bytes (Lib.canonical_text (_bytes a))).
  rewrite (str_run a w1 Ha), (str_run b w2 Hb), Hab. unfold outcome. simpl.
  repeat split.
  apply canonical_form_length, canonical_text_form. congruence.
Qed.

Lemma str_deterministic_witness :
  exists s,
    outcome (Uuid___str__ (mkUuid sample_bytes sample_generator) sample_world) = Ok s
    /\ outcome (Uuid___str__ (mkUuid sample_bytes (mkGenerator 7 "elsewhere.so"))
                 bare_world) = Ok s
    /\ length s = 36%nat.
Proof.
  apply (str_deterministic (mkUuid sample_bytes sample_generator)
           (mkUuid sample_bytes (mkGenerator 7 "elsewhere.so"))
           sample_world bare_world); reflexivity.
Defined.

(** ** The default generator *)

(** The constructor step by step: a new identity is taken first; the
    library must then be found and loaded. *)
Lemma init_default_run (w : World) :
  UuidGenerator___init__ None w =
    match first_existing (path_exists w) (possible_paths (sys_platform w)) with
    | Some path =>
        if cdll_loads w (path_str w path)
        then (Ok (mkGenerator (next_object w) (path_str w path)), allocate w)
        else (Raise (Exc OSError ""), allocate w)
    | None =>
        (Raise (Exc FileNotFoundError
           ("Could not find UUID generator library. " +:+
            "Please build the Rust library first with 'cargo build --release'")),
         allocate w)
    end.
Proof.
  unfold UuidGenerator___init__, bind, new_object, UuidGenerator__find_library, CDLL.
  cbn [allocate sys_platform path_exists path_str cdll_loads].
  destruct (first_existing _ _) as [path|]; [|reflexivity].
  change (cdll_loads (allocate w)) with (cdll_loads w).
  now destruct (cdll_loads w (path_str w path)).
Qed.

Lemma init_default_inv (w w' : World) (g : UuidGenerator) :
  UuidGenerator___init__ None w = (Ok g, w') ->
  w' = allocate w /\ gen_id g = next_object w.
Proof.
  rewrite init_default_run.
  destruct (first_existing _ _) as [path|]; [|discriminate].
  destruct (cdll_loads w (path_str w path)); [|discriminate].
  intros [= <- <-]. split; reflexivity.
Qed.

(** Once a default is stored, [get_generator] returns it and changes
    nothing. *)
Lemma get_generator_stored (w : World) (g : UuidGenerator) :
  _default_generator w = Some g -> get_generator w = (Ok g, w).
Proof. intros H. unfold get_generator. now rewrite H. Qed.

Lemma get_generator_times_stored (n : nat) (w : World) (g : UuidGenerator) :
  _default_generator w = Some g ->
  get_generator_times n w = (Ok (replicate n g), w).
Proof.
  intros H. induction n as [|n IH]; [reflexivity|].
  cbn [get_generator_times replicate].
  rewrite (bind_ok _ _ _ _ _ (get_generator_stored w g H)).
  now rewrite (bind_ok _ _ _ _ _ IH).
Qed.

(** A thread that runs [get_generator] alone does what the function does. *)
Lemma solo_thread (w : World) :
  run_schedule [0; 0; 0]%nat [AtTest] w =
    match get_generator w with
    | (Ok g, w') => ([Returned (Some g)], w')
    | (Raise e, w') => ([Raised e], w')
    end.
Proof.
  unfold get_generator. cbn [run_schedule lookup list_lookup step_frame].
  destruct (_default_generator w) as [g|] eqn:E.
  - cbn. now rewrite E.
  - cbn [fst snd insert list_insert lookup list_lookup step_frame].
    unfold bind.
    destruct (UuidGenerator___init__ None w) as [[g|e] w']; reflexivity.
Qed.

(** C8, as stated, fails: with two threads entering [get_generator] on a
    fresh process, the schedule in which both pass the test of line 262
    before either assigns constructs two generators and hands a different
    one to each caller. *)
Lemma concurrent_first_use_constructs_twice :
  run_schedule [0; 1; 0; 0; 1; 1]%nat (replicate 2 AtTest) sample_world
    = ([Returned (Some (mkGenerator 0 "/opt/uuid/libuuid_generator.so"));
        Returned (Some (mkGenerator 1 "/opt/uuid/libuuid_generator.so"))],
       set_default_generator (mkGenerator 1 "/opt/uuid/libuuid_generator.so")
         (allocate (allocate sample_world)))
  /\ ~ initialised_once sample_world 2 [0; 1; 0; 0; 1; 1]%nat.
Proof.
  split; [reflexivity|].
  intros [Hcount _]. vm_compute in Hcount. lia.
Qed.

(** C8, amended: when calls of [get_generator] are not interleaved, the
    first call that succeeds constructs one UuidGenerator and stores it,
    and every later call returns that same instance and changes nothing,
    so nothing is constructed again. *)
Theorem get_generator_singleton (w w1 : World) (g : UuidGenerator) :
  _default_generator w = None ->
  get_generator w = (Ok g, w1) ->
  UuidGenerator___init__ None w = (Ok g, allocate w)
  /\ w1 = set_default_generator g (allocate w)
  /\ _default_generator w1 = Some g
  /\ forall n, get_generator_times n w1 = (Ok (replicate n g), w1).
Proof.
  intros Hnone Hget. unfold get_generator in Hget. rewrite Hnone in Hget.
  apply bind_inv in Hget as (g' & w' & Hinit & Hstore).
  injection Hstore as <- <-.
  destruct (init_default_inv _ _ _ Hinit) as [-> _].
  repeat split; [exact Hinit|].
  intros n. now apply get_generator_times_stored.
Qed.

Lemma get_generator_singleton_witness :
  exists g w1,
    get_generator sample_world = (Ok g, w1)
    /\ next_object w1 = 1%nat
    /\ get_generator_times 3 w1 = (Ok [g; g; g], w1).
Proof.
  destruct (get_generator sample_world) as [[g|e] w1] eqn:E;
    [|vm_compute in E; discriminate].
  destruct (get_generator_singleton sample_world w1 g eq_refl E)
    as (_ & Hw1 & _ & Hlater).
  exists g, w1. split; [reflexivity|]. split.
  - rewrite Hw1. reflexivity.
  - exact (Hlater 3%nat).
Defined.

(** When the library cannot be found the first call raises and stores
    nothing, so a later call tries again. *)
Example get_generator_bare :
  raised_class (outcome (get_generator bare_world)) = Some FileNotFoundError
  /\ _default_generator (final (get_generator bare_world)) = None.
Proof. split; reflexivity. Qed.

(** ** Further checks against the written properties *)

(** The test vector of the specification:
    [00 00 00 00 00 00 40 00 80 00 00 00 00 00 00 00] reports version 4 and
    variant 2. *)
Example info_test_vector :
  outcome (Uuid_info
             (mkUuid [x00; x00; x00; x00; x00; x00; x40; x00;
                      x80; x00; x00; x00; x00; x00; x00; x00] sample_generator)
             sample_world) = Ok (4, 2).
Proof. reflexivity. Qed.

(** The imposed variant is the bit pattern 10 itself. *)
Lemma set_variant_pattern (b : byte) :
  N.testbit (Byte.to_N (Lib.set_variant b)) 7 = true
  /\ N.testbit (Byte.to_N (Lib.set_variant b)) 6 = false.
Proof. destruct b; split; reflexivity. Qed.

(** Values that compare equal hash alike. *)
Lemma eq_implies_same_hash (a b : Uuid) (w : World) :
  length (_bytes a) = 16%nat -> length (_bytes b) = 16%nat ->
  outcome (Uuid___eq__ a (PyUuid b) w) = Ok true ->
  outcome (Uuid___hash__ a w) = outcome (Uuid___hash__ b w).
Proof.
  intros Ha Hb. rewrite (eq_run a b w Ha Hb). unfold outcome. simpl.
  intros [= Heq]. apply (all_bytes_equal_iff _ _ Ha Hb) in Heq.
  now rewrite Heq.
Qed.

(** The module-level [from_bytes] obtains the default generator before it
    looks at the bytes: without a library a short input is not even
    examined. *)
Example module_from_bytes_bare :
  raised_class (outcome (from_bytes short_bytes bare_world)) = Some FileNotFoundError
  /\ raised_class (outcome (from_bytes short_bytes sample_world)) = Some ValueError.
Proof. split; reflexivity. Qed.

(** * Further properties of the binding module *)

(** ** Locating the library *)

Lemma first_existing_Some (exists_ : Path -> bool) (paths : list Path) (p : Path) :
  first_existing exists_ paths = Some p ->
  exists before after,
    paths = before ++ p :: after
    /\ exists_ p = true
    /\ Forall (fun q => exists_ q = false) before.
Proof.
  induction paths as [|q paths IH]; [discriminate|].
  cbn [first_existing]. destruct (exists_ q) eqn:E.
  - intros [= ->]. exists [], paths. repeat split; [exact E | constructor].
  - intros H. destruct (IH H) as (before & after & -> & Hp & Hbefore).
    exists (q :: before), after. repeat split; [exact Hp|].
    now constructor.
Qed.

Lemma first_existing_None (exists_ : Path -> bool) (paths : list Path) :
  first_existing exists_ paths = None
  <-> Forall (fun q => exists_ q = false) paths.
Proof.
  induction paths as [|q paths IH]; cbn [first_existing].
  - split; [constructor | reflexivity].
  - destruct (exists_ q) eqn:E; split.
    + discriminate.
    + intros H. apply Forall_cons in H as [H _]. congruence.
    + intros H. constructor; [exact E | now apply IH].
    + intros H. apply Forall_cons in H as [_ H]. now apply IH.
Qed.

(** X1: when [_find_library] returns, it returns the first candidate, in
    the order of [possible_paths], that exists: every candidate listed
    before it is absent.  The search changes nothing. *)
Theorem find_library_first (w w' : World) (found : string) :
  UuidGenerator__find_library w = (Ok found, w') ->
  w' = w
  /\ exists before p after,
       possible_paths (sys_platform w) = before ++ p :: after
       /\ found = path_str w p
       /\ path_exists w p = true
       /\ Forall (fun q => path_exists w q = false) before.
Proof.
  unfold UuidGenerator__find_library.
  destruct (first_existing _ _) as [p|] eqn:E; [|discriminate].
  intros [= <- <-]. split; [reflexivity|].
  destruct (first_existing_Some _ _ _ E) as (before & after & Hl & Hp & Hb).
  exists before, p, after. repeat split; assumption.
Qed.

Lemma find_library_first_witness :
  exists before p after,
    possible_paths "linux" = before ++ p :: after
    /\ "/opt/uuid/libuuid_generator.so" = path_str sample_world p
    /\ path_exists sample_world p = true
    /\ Forall (fun q => path_exists sample_world q = false) before.
Proof.
  exact (proj2 (find_library_first sample_world sample_world
                  "/opt/uuid/libuuid_generator.so" eq_refl)).
Defined.

(** X2: [_find_library] raises FileNotFoundError exactly when none of the
    candidates exists; in every other case it returns a path. *)
Theorem find_library_missing (w : World) :
  raised_class (outcome (UuidGenerator__find_library w)) = Some FileNotFoundError
  <-> Forall (fun q => path_exists w q = false) (possible_paths (sys_platform w)).
Proof.
  unfold UuidGenerator__find_library. rewrite <- first_existing_None.
  destruct (first_existing _ _) as [p|]; split; (reflexivity || discriminate).
Qed.

(** X3: on every platform the release build beside the module is the first
    choice: when it exists it is the path returned, whatever else
    exists. *)
Theorem find_library_prefers_release (w : World) :
  path_exists w (ModuleDir "../../target/release/libuuid_generator.so") = true ->
  UuidGenerator__find_library w
    = (Ok (path_str w (ModuleDir "../../target/release/libuuid_generator.so")), w).
Proof.
  intros H. unfold UuidGenerator__find_library, possible_paths.
  cbn [app first_existing]. now rewrite H.
Qed.

Lemma find_library_prefers_release_witness :
  UuidGenerator__find_library broken_release_world
    = (Ok "/opt/uuid/../../target/release/libuuid_generator.so",
       broken_release_world).
Proof.
  exact (find_library_prefers_release broken_release_world eq_refl).
Defined.

Lemma possible_paths_elsewhere (platform : string) :
  platform <> "darwin" -> platform <> "win32" ->
  possible_paths platform =
    [ ModuleDir "../../target/release/libuuid_generator.so";
      ModuleDir "../../target/debug/libuuid_generator.so";
      ModuleDir "libuuid_generator.so";
      Cwd "./libuuid_generator.so";
      Cwd "./target/release/libuuid_generator.so" ].
Proof.
  intros Hd Hw. unfold possible_paths.
  apply String.eqb_neq in Hd, Hw. now rewrite Hd, Hw.
Qed.

(** X4: the [.dylib] and [.dll] candidates are probed on their own
    platforms only.  Elsewhere the five [.so] locations decide alone: when
    none of them exists the search raises FileNotFoundError, whatever other
    builds are present. *)
Theorem find_library_elsewhere (w : World) :
  sys_platform w <> "darwin" -> sys_platform w <> "win32" ->
  path_exists w (ModuleDir "../../target/release/libuuid_generator.so") = false ->
  path_exists w (ModuleDir "../../target/debug/libuuid_generator.so") = false ->
  path_exists w (ModuleDir "libuuid_generator.so") = false ->
  path_exists w (Cwd "./libuuid_generator.so") = false ->
  path_exists w (Cwd "./target/release/libuuid_generator.so") = false ->
  raised_class (outcome (UuidGenerator__find_library w)) = Some FileNotFoundError.
Proof.
  intros Hd Hw H1 H2 H3 H4 H5. apply find_library_missing.
  rewrite (possible_paths_elsewhere _ Hd Hw).
  repeat constructor; assumption.
Qed.

Lemma find_library_elsewhere_witness :
  path_exists foreign_builds_world (ModuleDir "libuuid_generator.dylib") = true
  /\ path_exists foreign_builds_world (ModuleDir "uuid_generator.dll") = true
  /\ raised_class (outcome (UuidGenerator__find_library foreign_builds_world))
       = Some FileNotFoundError.
Proof.
  split; [reflexivity|]. split; [reflexivity|].
  apply (find_library_elsewhere foreign_builds_world);
    (reflexivity || (simpl; discriminate)).
Defined.

(** ** Constructing a generator *)


(** X6: without a path the constructor tries the first existing candidate
    only.  When that one does not load it raises OSError and does not go on
    to later candidates, even to one that would load. *)
Theorem init_no_fallback (w : World) (p : Path) :
  first_existing (path_exists w) (possible_paths (sys_platform w)) = Some p ->
  cdll_loads w (path_str w p) = false ->
  raised_class (outcome (UuidGenerator___init__ None w)) = Some OSError.
Proof.
  intros Hfirst Hload. rewrite init_default_run, Hfirst, Hload. reflexivity.
Qed.

Lemma init_no_fallback_witness :
  path_exists broken_release_world
    (ModuleDir "../../target/debug/libuuid_generator.so") = true
  /\ cdll_loads broken_release_world
       (path_str broken_release_world
          (ModuleDir "../../target/debug/libuuid_generator.so")) = true
  /\ raised_class (outcome (UuidGenerator___init__ None broken_release_world))
       = Some OSError.
Proof.
  split; [reflexivity|]. split; [reflexivity|].
  apply (init_no_fallback broken_release_world
           (ModuleDir "../../target/release/libuuid_generator.so"));
    reflexivity.
Defined.

(** ** The exception hierarchy *)

(** X7: whatever [_check_error] raises is a UuidError: a handler for the
    module's base class catches every failure reported by the library,
    for every status code. *)
Theorem check_error_raises_UuidError (c : Z) (w : World) (e : Exn) :
  outcome (UuidGenerator__check_error c w) = Raise e ->
  is_UuidError (exn_class e) = true.
Proof.
  unfold UuidGenerator__check_error.
  destruct (decide (c ≠ 0)) as [Hc|Hc]; [|discriminate].
  unfold outcome, raise. cbn [fst]. intros [= <-]. cbn [exn_class].
  destruct (Z.eq_dec c 1) as [->|N1]; [reflexivity|].
  destruct (Z.eq_dec c 2) as [->|N2]; [reflexivity|].
  destruct (Z.eq_dec c 3) as [->|N3]; [reflexivity|].
  destruct (Z.eq_dec c 99) as [->|N99]; [reflexivity|].
  now rewrite ERROR_CODES_other.
Qed.

Lemma check_error_raises_UuidError_witness :
  is_UuidError
    (exn_class (Exc UnknownError "UUID operation failed with error code -7")) = true.
Proof.
  exact (check_error_raises_UuidError (-7) sample_world _ eq_refl).
Defined.

(** ** Every Uuid holds 16 bytes *)

Lemma Uuid_init_inv (b : list byte) (g : UuidGenerator) (w w' : World) (u : Uuid) :
  Uuid___init__ b g w = (Ok u, w') ->
  u = mkUuid b g /\ w' = w /\ length b = 16%nat.
Proof.
  unfold Uuid___init__. destruct (decide (length b ≠ 16%nat)) as [|Hlen]; [discriminate|].
  intros [= <- <-]. repeat split. lia.
Qed.

Lemma method_from_bytes_inv (g : UuidGenerator) (b : list byte) (w w' : World) (u : Uuid) :
  UuidGenerator_from_bytes g b w = (Ok u, w') ->
  u = mkUuid b g /\ w' = w /\ length b = 16%nat.
Proof.
  unfold UuidGenerator_from_bytes.
  destruct (decide (length b ≠ 16%nat)); [discriminate|].
  apply Uuid_init_inv.
Qed.

(** X8: whichever way a Uuid comes into being (the constructor,
    [UuidGenerator.from_bytes], [generate], [uuid4] or the module-level
    [from_bytes]), it holds exactly 16 bytes. *)
Theorem Uuid_holds_16_bytes (u : Uuid) (w w' : World) :
  (exists b g, Uuid___init__ b g w = (Ok u, w'))
  \/ (exists g b, UuidGenerator_from_bytes g b w = (Ok u, w'))
  \/ (exists g, UuidGenerator_generate g w = (Ok u, w'))
  \/ uuid4 w = (Ok u, w')
  \/ (exists b, from_bytes b w = (Ok u, w')) ->
  length (Uuid_bytes u) = 16%nat.
Proof.
  unfold Uuid_bytes.
  intros [(b & g & H)|[(g & b & H)|[(g & H)|[H|(b & H)]]]].
  - apply Uuid_init_inv in H as (-> & _ & Hlen). exact Hlen.
  - apply method_from_bytes_inv in H as (-> & _ & Hlen). exact Hlen.
  - apply generate_inv in H as (raw & Hlen & ->). now rewrite impose_v4_length.
  - unfold uuid4 in H. apply bind_inv in H as (g & w1 & _ & H).
    apply generate_inv in H as (raw & Hlen & ->). now rewrite impose_v4_length.
  - unfold from_bytes in H. apply bind_inv in H as (g & w1 & _ & H).
    apply method_from_bytes_inv in H as (-> & _ & Hlen). exact Hlen.
Qed.

Lemma Uuid_holds_16_bytes_witness :
  exists u w', uuid4 sample_world = (Ok u, w') /\ length (Uuid_bytes u) = 16%nat.
Proof.
  destruct (uuid4 sample_world) as [[u|e] w'] eqn:E; [|vm_compute in E; discriminate].
  exists u, w'. split; [reflexivity|].
  apply (Uuid_holds_16_bytes u sample_world w').
  right. right. right. left. exact E.
Defined.

(** ** Generation *)

(** X9: [generate] makes one library call and uses up one entropy read,
    whether it succeeds or not.  When the read fails it raises
    EntropyError; when the read succeeds it returns a Uuid that belongs to
    the generator it was called on. *)
Theorem generate_effects (g : UuidGenerator) (w : World) :
  final (UuidGenerator_generate g w) = log_call Call_generate_v4 (consume_entropy w)
  /\ (os_entropy w (entropy_reads w) = None ->
      raised_class (outcome (UuidGenerator_generate g w)) = Some EntropyError)
  /\ (forall src, os_entropy w (entropy_reads w) = Some src ->
      exists u, outcome (UuidGenerator_generate g w) = Ok u /\ _generator u = g).
Proof.
  rewrite generate_run. unfold Lib.entropy_source.
  destruct (os_entropy w (entropy_reads w)) as [src|].
  - repeat split; [discriminate|].
    intros src' _. eexists. split; reflexivity.
  - repeat split. intros src [=].
Qed.

Lemma generate_effects_witness :
  raised_class (outcome (UuidGenerator_generate sample_generator no_entropy_world))
    = Some EntropyError
  /\ exists u,
       outcome (UuidGenerator_generate sample_generator sample_world) = Ok u
       /\ _generator u = sample_generator.
Proof.
  split.
  - exact (proj1 (proj2 (generate_effects sample_generator no_entropy_world)) eq_refl).
  - exact (proj2 (proj2 (generate_effects sample_generator sample_world)) _ eq_refl).
Defined.

Lemma get_generator_stores (w w1 : World) (g : UuidGenerator) :
  get_generator w = (Ok g, w1) -> _default_generator w1 = Some g.
Proof.
  unfold get_generator. destruct (_default_generator w) as [g0|] eqn:E.
  - now intros [= <- <-].
  - intros H. apply bind_inv in H as (g' & w' & _ & H).
    now injection H as <- <-.
Qed.

Lemma uuid4_inv (w w1 : World) (u : Uuid) :
  uuid4 w = (Ok u, w1) ->
  exists w0,
    get_generator w = (Ok (_generator u), w0)
    /\ w1 = log_call Call_generate_v4 (consume_entropy w0).
Proof.
  unfold uuid4. intros H. apply bind_inv in H as (g & w0 & Hg & H).
  rewrite generate_run in H.
  destruct (Lib.entropy_source _); [|discriminate].
  injection H as <- <-. now exists w0.
Qed.

(** X10: after a successful [uuid4] the default generator is stored and is
    the generator of the Uuid returned; a later [uuid4] uses that same
    generator, constructs nothing, and costs one library call and one
    entropy read. *)
Theorem uuid4_reuses_default (w w1 w2 : World) (u u' : Uuid) :
  uuid4 w = (Ok u, w1) ->
  uuid4 w1 = (Ok u', w2) ->
  _default_generator w1 = Some (_generator u)
  /\ _generator u' = _generator u
  /\ w2 = log_call Call_generate_v4 (consume_entropy w1).
Proof.
  intros H1 H2.
  apply uuid4_inv in H1 as (w0 & Hg & ->).
  apply get_generator_stores in Hg.
  assert (_default_generator (log_call Call_generate_v4 (consume_entropy w0))
          = Some (_generator u)) as Hstored by exact Hg.
  apply uuid4_inv in H2 as (w0' & Hg' & ->).
  rewrite (get_generator_stored _ _ Hstored) in Hg'.
  injection Hg' as Heq <-.
  repeat split; [exact Hstored | now symmetry].
Qed.

Lemma uuid4_reuses_default_witness :
  exists u u' w1 w2,
    uuid4 sample_world = (Ok u, w1)
    /\ uuid4 w1 = (Ok u', w2)
    /\ _generator u' = _generator u
    /\ next_object w2 = 1%nat.
Proof.
  destruct (uuid4 sample_world) as [[u|e] w1] eqn:E1; [|vm_compute in E1; discriminate].
  destruct (uuid4 w1) as [[u'|e] w2] eqn:E2.
  - destruct (uuid4_reuses_default sample_world w1 w2 u u' E1 E2) as (_ & Hg & Hw).
    exists u, u', w1, w2.
    split; [reflexivity|]. split; [exact E2|]. split; [exact Hg|].
    rewrite Hw. vm_compute in E1. injection E1 as _ <-. reflexivity.
  - exfalso. vm_compute in E1. injection E1 as _ <-. vm_compute in E2. discriminate.
Defined.

(** ** The default generator and its failures *)

(** X11: the module-level [from_bytes] obtains the default generator
    before it looks at its argument.  If that fails, the failure is what
    the caller sees, whatever the bytes; if it succeeds and the length is
    wrong, ValueError is raised after the default generator has been
    stored. *)
Theorem module_from_bytes_order (b : list byte) (w w1 : World) :
  (forall e, get_generator w = (Raise e, w1) -> from_bytes b w = (Raise e, w1))
  /\ (forall g, get_generator w = (Ok g, w1) -> length b <> 16%nat ->
       from_bytes b w
         = (Raise (Exc ValueError "UUID bytes must be exactly 16 bytes"), w1)
       /\ _default_generator w1 = Some g).
Proof.
  unfold from_bytes. split.
  - intros e H. now rewrite (bind_raise _ _ _ _ _ H).
  - intros g H Hlen. rewrite (bind_ok _ _ _ _ _ H).
    unfold UuidGenerator_from_bytes.
    destruct (decide (length b ≠ 16%nat)); [|contradiction].
    split; [reflexivity | now apply get_generator_stores in H].
Qed.

Lemma module_from_bytes_order_witness :
  exists w1,
    from_bytes short_bytes sample_world
      = (Raise (Exc ValueError "UUID bytes must be exactly 16 bytes"), w1)
    /\ _default_generator w1 = Some sample_generator.
Proof.
  exists initialised_world.
  apply (proj2 (module_from_bytes_order short_bytes sample_world initialised_world)
           sample_generator); [reflexivity | simpl; lia].
Defined.



(** ** Copies, equality and text *)

(** X13: a Uuid rebuilt from the [bytes] of another, through any
    generator, compares equal to the original and renders to the same
    string (the comparison of example.py, lines 37-45). *)
Theorem copy_equals_original (u : Uuid) (g : UuidGenerator) (w : World) :
  length (Uuid_bytes u) = 16%nat ->
  exists copy,
    UuidGenerator_from_bytes g (Uuid_bytes u) w = (Ok copy, w)
    /\ outcome (Uuid___eq__ u (PyUuid copy) w) = Ok true
    /\ outcome (Uuid___eq__ copy (PyUuid u) w) = Ok true
    /\ outcome (Uuid___str__ copy w) = outcome (Uuid___str__ u w).
Proof.
  unfold Uuid_bytes. intros H. exists (mkUuid (_bytes u) g).
  assert (length (_bytes (mkUuid (_bytes u) g)) = 16%nat) as Hc by exact H.
  split.
  - unfold UuidGenerator_from_bytes, Uuid___init__.
    destruct (decide (length (_bytes u) ≠ 16%nat)); [contradiction | reflexivity].
  - rewrite (eq_run u _ w H Hc), (eq_run _ u w Hc H).
    rewrite (str_run u w H), (str_run _ w Hc). unfold outcome. cbn [fst _bytes].
    assert (Lib.all_bytes_equal (_bytes u) (_bytes u) = true) as ->
      by now apply all_bytes_equal_iff.
    repeat split.
Qed.

Lemma copy_equals_original_witness :
  exists copy,
    UuidGenerator_from_bytes (mkGenerator 3 "other.so") sample_bytes sample_world
      = (Ok copy, sample_world)
    /\ outcome (Uuid___eq__ (mkUuid sample_bytes sample_generator) (PyUuid copy)
                 sample_world) = Ok true.
Proof.
  destruct (copy_equals_original (mkUuid sample_bytes sample_generator)
              (mkGenerator 3 "other.so") sample_world eq_refl)
    as (copy & Hc & He & _ & _).
  exists copy. split; [exact Hc | exact He].
Defined.

(** X14: on Uuid values [==] is symmetric and transitive: [a == b] and
    [b == a] give the same answer, and two equalities chain.  The
    generators of the operands play no part. *)
Theorem eq_symmetric_transitive (a b c : Uuid) (w : World) :
  length (_bytes a) = 16%nat ->
  length (_bytes b) = 16%nat ->
  length (_bytes c) = 16%nat ->
  outcome (Uuid___eq__ a (PyUuid b) w) = outcome (Uuid___eq__ b (PyUuid a) w)
  /\ (outcome (Uuid___eq__ a (PyUuid b) w) = Ok true ->
      outcome (Uuid___eq__ b (PyUuid c) w) = Ok true ->
      outcome (Uuid___eq__ a (PyUuid c) w) = Ok true).
Proof.
  intros Ha Hb Hc.
  rewrite (eq_run a b w Ha Hb), (eq_run b a w Hb Ha),
          (eq_run b c w Hb Hc), (eq_run a c w Ha Hc).
  unfold outcome. cbn [fst]. split.
  - f_equal.
    destruct (Lib.all_bytes_equal (_bytes a) (_bytes b)) eqn:Eab;
    destruct (Lib.all_bytes_equal (_bytes b) (_bytes a)) eqn:Eba; try reflexivity.
    + apply (all_bytes_equal_iff _ _ Ha Hb) in Eab.
      symmetry in Eab. apply (all_bytes_equal_iff _ _ Hb Ha) in Eab. congruence.
    + apply (all_bytes_equal_iff _ _ Hb Ha) in Eba.
      symmetry in Eba. apply (all_bytes_equal_iff _ _ Ha Hb) in Eba. congruence.
  - intros [= Hab] [= Hbc]. f_equal.
    apply (all_bytes_equal_iff _ _ Ha Hb) in Hab.
    apply (all_bytes_equal_iff _ _ Hb Hc) in Hbc.
    apply (all_bytes_equal_iff _ _ Ha Hc). congruence.
Qed.

Lemma eq_symmetric_transitive_witness :
  outcome (Uuid___eq__ (mkUuid sample_bytes sample_generator)
             (PyUuid (mkUuid (Lib.impose_v4 sample_bytes) (mkGenerator 3 "other.so")))
             sample_world)
  = outcome (Uuid___eq__ (mkUuid (Lib.impose_v4 sample_bytes) (mkGenerator 3 "other.so"))
               (PyUuid (mkUuid sample_bytes sample_generator))
               sample_world).
Proof.
  exact (proj1 (eq_symmetric_transitive
                  (mkUuid sample_bytes sample_generator)
                  (mkUuid (Lib.impose_v4 sample_bytes) (mkGenerator 3 "other.so"))
                  (mkUuid sample_bytes sample_generator)
                  sample_world eq_refl eq_refl eq_refl)).
Defined.

(** X15: [repr] of a Uuid is its string form between [Uuid('] and [')]:
    44 characters, obtained with one rendering call to the library. *)
Theorem repr_wraps_str (u : Uuid) (w : World) :
  length (_bytes u) = 16%nat ->
  exists s,
    Uuid___str__ u w = (Ok s, log_call (Call_to_string (_bytes u) 37) w)
    /\ Uuid___repr__ u w
         = (Ok (literal "Uuid('" ++ s ++ literal "')"),
            log_call (Call_to_string (_bytes u) 37) w)
    /\ length (literal "Uuid('" ++ s ++ literal "')") = 44%nat.
Proof.
  intros H. exists (str_of_bytes (Lib.canonical_text (_bytes u))).
  pose proof (str_run u w H) as Hstr. split; [exact Hstr|]. split.
  - unfold Uuid___repr__. now rewrite (bind_ok _ _ _ _ _ Hstr).
  - rewrite !length_app.
    rewrite (canonical_form_length _ (canonical_text_form _ H)). reflexivity.
Qed.

Lemma repr_wraps_str_witness :
  outcome (Uuid___repr__ (mkUuid sample_bytes sample_generator) sample_world)
  = Ok (literal "Uuid('00112233-4455-6677-8899-aabbccddeeff')").
Proof.
  destruct (repr_wraps_str (mkUuid sample_bytes sample_generator) sample_world eq_refl)
    as (s & Hs & Hr & _).
  rewrite Hr. vm_compute in Hs. injection Hs as <-. reflexivity.
Defined.

(** X16: [info] returns the pair of what [version] and [variant] return,
    and asks the library twice to get it: two [uuid_get_info] calls on the
    same bytes. *)
Theorem info_is_version_and_variant (u : Uuid) (w : World) :
  length (_bytes u) = 16%nat ->
  exists version variant,
    outcome (Uuid_version u w) = Ok version
    /\ outcome (Uuid_variant u w) = Ok variant
    /\ Uuid_info u w
         = (Ok (version, variant),
            log_call (Call_get_info (_bytes u))
              (log_call (Call_get_info (_bytes u)) w)).
Proof.
  intros H.
  exists (Z.of_N (Lib.extract_version (_bytes u))),
         (Z.of_N (Lib.extract_variant (_bytes u))).
  rewrite (version_run u w H), (variant_run u w H).
  split; [reflexivity|]. split; [reflexivity|].
  unfold Uuid_info.
  rewrite (bind_ok _ _ _ _ _ (version_run u w H)).
  now rewrite (bind_ok _ _ _ _ _ (variant_run u _ H)).
Qed.

Lemma info_is_version_and_variant_witness :
  exists version variant,
    Uuid_info (mkUuid sample_bytes sample_generator) sample_world
      = (Ok (version, variant),
         log_call (Call_get_info sample_bytes)
           (log_call (Call_get_info sample_bytes) sample_world)).
Proof.
  destruct (info_is_version_and_variant (mkUuid sample_bytes sample_generator)
              sample_world eq_refl) as (version & variant & _ & _ & H).
  exists version, variant. exact H.
Defined.

(** ** Threads after initialisation *)




